(** * Memory routes of the timeline server

    A shallow embedding of [src/routes/memories.ts]: the five route
    handlers registered by [memoriesRoutes] ([GET /memories],
    [GET /memories/:id], [POST /memories], [PUT /memories/:id],
    [DELETE /memories/:id]), the two zod schemas they parse their input
    with, and the [prisma.memory] calls they make.

    - The [memory] table is a finite map from the primary key [id] to the
      row, and every handler is a function from the state of the world
      (the table plus the log of the store calls made so far) to an
      outcome and a new state.
    - A handler ends in one of three ways: it returns a value (which
      fastify serialises as the body of a 200 response), it sends a reply
      of its own with [reply.status(n).send()] (a status and no body), or
      an exception leaves it.  The handlers catch nothing, so a thrown
      error is the handler's outcome; [server.ts] installs no error
      handler, so fastify's default one answers it ([response_status]).
    - Strings are [string]: one character stands for one UTF-16 code unit,
      which is what [length] and [substring] count in the source.
    - [createdAt] is an integer time stamp. *)

From stdpp Require Import gmap strings list sorting.
From Stdlib Require Import ZArith Ascii String.

#[local] Open Scope string_scope.
#[local] Open Scope nat_scope.
#[local] Open Scope list_scope.

(** ** Data model *)

(** A row of the [memory] table, with the columns the handlers read and
    write. *)
Record Memory : Type := {
  id : string;
  content : string;
  coverUrl : string;
  isPublic : bool;
  userId : string;
  createdAt : Z
}.

#[global] Instance Memory_eq_dec : EqDecision Memory.
Proof. solve_decision. Defined.

(** The item [GET /memories] builds for each memory. *)
Record Summary : Type := {
  item_id : string;
  item_coverUrl : string;
  excerpt : string
}.

#[global] Instance Summary_eq_dec : EqDecision Summary.
Proof. solve_decision. Defined.

(** A JavaScript value as a request body carries it: [undefined] when the
    request has no body or an object has no such property, otherwise what
    the JSON parser produced.  Only whether a number is zero matters
    below, so numbers are integers. *)
#[warnings="-register-all"]
Inductive JsValue : Type :=
  | JUndefined
  | JNull
  | JBool (b : bool)
  | JNumber (n : Z)
  | JString (s : string)
  | JArray (items : list JsValue)
  | JObject (fields : gmap string JsValue).

(** [req.user.sub], [req.params.id] and [req.body].  The [preHandler] hook
    has verified the token when a handler runs, so [user_sub] is the
    caller's subject; a path parameter is always a string. *)
Record Request : Type := {
  user_sub : string;
  params_id : string;
  body : JsValue
}.

(** ** Outcomes, the world and the handler monad *)

Inductive Error : Type :=
  | ZodError                (* thrown by [schema.parse] *)
  | NotFoundError           (* thrown by [findUniqueOrThrow], [update], [delete] *)
  | UniqueConstraintError.  (* thrown by [create] on a primary key in use *)

Inductive Outcome (A : Type) : Type :=
  | Return (a : A)          (* [return a] *)
  | Reply (status : nat)    (* [return reply.status(n).send()]: no body *)
  | Throw (e : Error).
Arguments Return {A} a.
Arguments Reply {A} status.
Arguments Throw {A} e.

(** The calls on [prisma.memory], with their arguments. *)
Inductive StoreCall : Type :=
  | FindMany (owner : string)
  | FindUniqueOrThrow (i : string)
  | Create (c u : string) (p : bool) (owner : string)
  | Update (i : string) (c u : string) (p : bool)
  | Delete (i : string).

Record World : Type := {
  db : gmap string Memory;
  calls : list StoreCall
}.

Definition Handler (A : Type) : Type := World → Outcome A * World.

Definition ret {A} (a : A) : Handler A := λ w, (Return a, w).
Definition reply {A} (status : nat) : Handler A := λ w, (Reply status, w).
Definition throw {A} (e : Error) : Handler A := λ w, (Throw e, w).

Definition bind {A B} (c : Handler A) (k : A → Handler B) : Handler B :=
  λ w, match c w with
       | (Return a, w') => k a w'
       | (Reply status, w') => (Reply status, w')
       | (Throw e, w') => (Throw e, w')
       end.

Notation "x <- c ;; k" := (bind c (λ x, k))
  (at level 100, c at next level, right associativity,
   format "'[v' x  <-  c  ;; '/' k ']'").

Definition log (c : StoreCall) (w : World) : World :=
  {| db := db w; calls := calls w ++ [c] |}.

Definition with_db (d : gmap string Memory) (w : World) : World :=
  {| db := d; calls := calls w |}.

(** ** The store: [prisma.memory] *)

Definition created_le (a b : Memory) : Prop := (createdAt a ≤ createdAt b)%Z.

#[global] Instance created_le_dec a b : Decision (created_le a b).
Proof. unfold created_le. apply _. Defined.

(** The rows of the table, each once, in no order that matters. *)
Definition rows (d : gmap string Memory) : list Memory := (map_to_list d).*2.

(** [findMany({ where: { userId }, orderBy: { createdAt: 'asc' } })]. *)
Definition memory_findMany (owner : string) : Handler (list Memory) :=
  λ w, (Return (merge_sort created_le
                  (filter (λ m, userId m = owner) (rows (db w)))),
        log (FindMany owner) w).

(** [findUniqueOrThrow({ where: { id } })]. *)
Definition memory_findUniqueOrThrow (i : string) : Handler Memory :=
  λ w, match db w !! i with
       | Some m => (Return m, log (FindUniqueOrThrow i) w)
       | None => (Throw NotFoundError, log (FindUniqueOrThrow i) w)
       end.

(** What the store fills in when a row is created.  The schema that
    declares the defaults of [id] and [createdAt] is not among the
    sources, so the two values are arguments of [create]. *)
Record Generated : Type := {
  new_id : string;
  now : Z
}.

(** [create({ data: { content, coverUrl, isPublic, userId } })]. *)
Definition memory_create (g : Generated) (c u : string) (p : bool)
    (owner : string) : Handler Memory :=
  λ w, let m := {| id := new_id g; content := c; coverUrl := u;
                   isPublic := p; userId := owner; createdAt := now g |} in
       match db w !! new_id g with
       | Some _ => (Throw UniqueConstraintError, log (Create c u p owner) w)
       | None => (Return m,
                  with_db (<[new_id g := m]> (db w)) (log (Create c u p owner) w))
       end.

(** [update({ where: { id }, data: { content, coverUrl, isPublic } })]. *)
Definition memory_update (i : string) (c u : string) (p : bool)
    : Handler Memory :=
  λ w, match db w !! i with
       | Some m =>
           let m' := {| id := id m; content := c; coverUrl := u;
                        isPublic := p; userId := userId m;
                        createdAt := createdAt m |} in
           (Return m', with_db (<[i := m']> (db w)) (log (Update i c u p) w))
       | None => (Throw NotFoundError, log (Update i c u p) w)
       end.

(** [delete({ where: { id } })]. *)
Definition memory_delete (i : string) : Handler Memory :=
  λ w, match db w !! i with
       | Some m => (Return m, with_db (delete i (db w)) (log (Delete i) w))
       | None => (Throw NotFoundError, log (Delete i) w)
       end.

(** ** The schemas *)

(** [v[k]] on a parsed body. *)
Definition prop (v : JsValue) (k : string) : JsValue :=
  match v with
  | JObject fields => default JUndefined (fields !! k)
  | _ => JUndefined
  end.

(** JavaScript's [Boolean(v)]. *)
Definition Boolean (v : JsValue) : bool :=
  match v with
  | JUndefined | JNull => false
  | JBool b => b
  | JNumber n => negb (n =? 0)%Z
  | JString s => negb (String.eqb s "")
  | JArray _ | JObject _ => true
  end.

(** [z.string()]: a string and nothing else. *)
Definition z_string (v : JsValue) : option string :=
  match v with
  | JString s => Some s
  | _ => None
  end.

(** [z.coerce.boolean().default(false)]: [default] replaces [undefined] by
    [false], then [coerce] applies [Boolean]. *)
Definition z_coerce_boolean_default_false (v : JsValue) : bool :=
  Boolean (match v with JUndefined => JBool false | _ => v end).

Definition is_object (v : JsValue) : bool :=
  match v with
  | JObject _ => true
  | _ => false
  end.

(** [bodySchema.parse(req.body)], the same schema in POST and PUT. *)
Definition bodySchema_parse (b : JsValue) : Handler (string * string * bool) :=
  if is_object b then
    match z_string (prop b "content"), z_string (prop b "coverUrl") with
    | Some c, Some u =>
        ret (c, u, z_coerce_boolean_default_false (prop b "isPublic"))
    | _, _ => throw ZodError
    end
  else throw ZodError.

(** ** Reading the result of a handler *)

(** [ends h w o d cs]: run from [w], the handler [h] ends with the outcome
    [o], leaves the table [d] and has made the store calls [cs], in this
    order, and no other. *)
Definition ends {A} (h : Handler A) (w : World) (o : Outcome A)
    (d : gmap string Memory) (cs : list StoreCall) : Prop :=
  h w = (o, {| db := d; calls := calls w ++ cs |}).

(** The rows of a table that belong to [owner]. *)
Definition owned_by (owner : string) (d : gmap string Memory) (m : Memory)
    : Prop :=
  (∃ k, d !! k = Some m) ∧ userId m = owner.

(** The excerpt as the specification words it: beyond 115 characters, the
    first 115 characters of the content followed by three dots, otherwise
    the content. *)
Definition excerpt_spec (c e : string) : Prop :=
  (115 < String.length c →
     ∃ first rest, c = first +:+ rest ∧ String.length first = 115 ∧
                   e = first +:+ "...") ∧
  (String.length c ≤ 115 → e = c).

(** A body that lacks the required property [k], or has it with a value
    that is not a string; a body that is not an object lacks it. *)
Definition missing_or_mistyped (b : JsValue) (k : string) : Prop :=
  ∀ s, prop b k ≠ JString s.

(** The values of [isPublic] that JavaScript takes for false. *)
Definition falsy : list JsValue :=
  [JBool false; JNumber 0; JString ""; JNull].

(** The rule that takes the [isPublic] a body supplies ([JUndefined] when
    it supplies none) to the stored flag: a string that is not empty
    gives true, and only no value or a falsy one gives false. *)
Definition truthiness_rule (supplied : JsValue) (stored : bool) : Prop :=
  (∀ s, supplied = JString s → s ≠ "" → stored = true) ∧
  (stored = false ↔ supplied = JUndefined ∨ supplied ∈ falsy).

(** Every key of the table is the [id] of its row. *)
Definition keyed_by_id (d : gmap string Memory) : Prop :=
  ∀ k m, d !! k = Some m → id m = k.

(** Whether a handler ended by returning a value. *)
Definition returned {A} (o : Outcome A) : bool :=
  match o with
  | Return _ => true
  | _ => false
  end.

(** A key that [d] and [d'] share has rows with the same [id], [userId]
    and [createdAt] in both. *)
Definition keeps_columns (d d' : gmap string Memory) : Prop :=
  ∀ k m m', d !! k = Some m → d' !! k = Some m' →
    id m' = id m ∧ userId m' = userId m ∧ createdAt m' = createdAt m.

(** Every row of [d] that does not belong to [caller] is in [d'], under
    the same key and unchanged. *)
Definition keeps_rows_of_others (caller : string)
    (d d' : gmap string Memory) : Prop :=
  ∀ k m, d !! k = Some m → userId m ≠ caller → d' !! k = Some m.

(** ** The answer on the wire

    [server.ts] builds the application with [fastify()] and registers the
    routes without an error handler of its own, and no handler catches
    what it throws.  A value a handler returns is sent with status 200, a
    reply the handler sends has the status it set, and a thrown error
    goes to fastify's default error handler, which answers with the
    [statusCode] of the error when it carries one of 400 or more and with
    500 otherwise; the errors of zod and of the store carry none. *)
Definition response_status {A} (o : Outcome A) : nat :=
  match o with
  | Return _ => 200
  | Reply status => status
  | Throw _ => 500
  end.

(** A status of the 4xx class. *)
Definition client_error (status : nat) : bool :=
  (400 <=? status) && (status <? 500).

(** The request is rejected by validation as the code does it: the
    handler is left by the error [parse] throws, the table and the log of
    store calls are as they were, and the answer is status 500, which is
    not a client error. *)
Definition fails_validation {A} (h : Handler A) (w : World) : Prop :=
  ends h w (Throw ZodError) (db w) [] ∧
  response_status (h w).1 = 500 ∧
  client_error (response_status (h w).1) = false.

(** The request is rejected as the specification words it: the answer is
    a client error and the world, store calls included, is as it was. *)
Definition refused_as_client_error {A} (h : Handler A) (w : World) : Prop :=
  client_error (response_status (h w).1) = true ∧ (h w).2 = w.

(** ** A concrete UUID test

    The shape 8-4-4-4-12 of hexadecimal digits, for running the routes on
    concrete requests. *)

Definition is_hex (a : ascii) : bool :=
  let n := nat_of_ascii a in
  ((48 <=? n) && (n <=? 57)) || ((65 <=? n) && (n <=? 70))
  || ((97 <=? n) && (n <=? 102)).

Fixpoint uuid_from (pos : nat) (s : string) : bool :=
  match s with
  | EmptyString => pos =? 36
  | String a rest =>
      (if (pos =? 8) || (pos =? 13) || (pos =? 18) || (pos =? 23)
       then Ascii.eqb a "-"%char
       else is_hex a)
      && uuid_from (S pos) rest
  end.

Definition hex_uuid (s : string) : bool := uuid_from 0 s.

(** ** Sample data *)

Definition id_a : string := "0b1c2d3e-4f50-4a6b-8c7d-9e0f1a2b3c4d".
Definition id_b : string := "11111111-2222-4333-8444-555555555555".
Definition id_c : string := "aaaaaaaa-bbbb-4ccc-8ddd-eeeeeeeeeeee".

(** A private memory of [ana] and a public one of [bia]. *)
Definition mem_a : Memory :=
  {| id := id_a; content := "first day"; coverUrl := "http://x/a.png";
     isPublic := false; userId := "ana"; createdAt := 20 |}.
Definition mem_b : Memory :=
  {| id := id_b; content := "open diary"; coverUrl := "http://x/b.png";
     isPublic := true; userId := "bia"; createdAt := 10 |}.

Definition world0 : World :=
  {| db := {[ id_a := mem_a; id_b := mem_b ]}; calls := [] |}.

Definition gen_c : Generated := {| new_id := id_c; now := 30 |}.

(** [{content: "hello", coverUrl: "http://x/y.png"}], with and without
    [isPublic]. *)
Definition body_hello : JsValue :=
  JObject {[ "content" := JString "hello";
             "coverUrl" := JString "http://x/y.png" ]}.
Definition body_hello_false_string : JsValue :=
  JObject {[ "content" := JString "hello";
             "coverUrl" := JString "http://x/y.png";
             "isPublic" := JString "false" ]}.
Definition body_no_cover : JsValue :=
  JObject {[ "content" := JString "hello" ]}.

Definition request (sub i : string) (b : JsValue) : Request :=
  {| user_sub := sub; params_id := i; body := b |}.

(** A table with a content of 120 characters in it. *)
Definition long_content : string :=
  "0123456789012345678901234567890123456789012345678901234567890123456789"
  +:+ "01234567890123456789012345678901234567890123456789".

Definition world_long : World :=
  {| db := {[ id_a := {| id := id_a; content := long_content;
                         coverUrl := "http://x/a.png"; isPublic := false;
                         userId := "ana"; createdAt := 20 |};
              id_b := mem_b;
              id_c := {| id := id_c; content := "short";
                         coverUrl := "http://x/c.png"; isPublic := true;
                         userId := "ana"; createdAt := 5 |} ]};
     calls := [] |}.

Section Routes.

(** [z.string().uuid()]: zod's test of the shape of a UUID, a library
    function that is not among the sources. *)
Variable uuid : string → bool.

(** [paramsSchema.parse(req.params)]. *)
Definition paramsSchema_parse (i : string) : Handler string :=
  if uuid i then ret i else throw ZodError.

(** ** The routes *)

(** [app.get('/memories', ...)] *)
Definition get_memories (req : Request) : Handler (list Summary) :=
  memories <- memory_findMany (user_sub req) ;;
  ret (map (λ memory,
              {| item_id := id memory;
                 item_coverUrl := coverUrl memory;
                 excerpt :=
                   if 115 <? String.length (content memory)
                   then substring 0 115 (content memory) +:+ "..."
                   else content memory |})
           memories).

(** [app.get('/memories/:id', ...)] *)
Definition get_memory (req : Request) : Handler Memory :=
  i <- paramsSchema_parse (params_id req) ;;
  memory <- memory_findUniqueOrThrow i ;;
  if negb (isPublic memory) && bool_decide (userId memory ≠ user_sub req)
  then reply 401
  else ret memory.

(** [app.post('/memories', ...)] *)
Definition post_memories (g : Generated) (req : Request) : Handler Memory :=
  parsed <- bodySchema_parse (body req) ;;
  let '(c, u, p) := parsed in
  memory <- memory_create g c u p (user_sub req) ;;
  ret memory.

(** [app.put('/memories/:id', ...)] *)
Definition put_memory (req : Request) : Handler Memory :=
  i <- paramsSchema_parse (params_id req) ;;
  parsed <- bodySchema_parse (body req) ;;
  let '(c, u, p) := parsed in
  memory <- memory_findUniqueOrThrow i ;;
  if bool_decide (userId memory ≠ user_sub req)
  then reply 401
  else
    memory <- memory_update i c u p ;;
    ret memory.

(** [app.delete('/memories/:id', ...)] *)
Definition delete_memory (req : Request) : Handler unit :=
  i <- paramsSchema_parse (params_id req) ;;
  memory <- memory_findUniqueOrThrow i ;;
  if bool_decide (userId memory ≠ user_sub req)
  then reply 401
  else
    _ <- memory_delete i ;;
    ret tt.

(** ** Lemmas on the schemas *)

Lemma bodySchema_parse_ok (b : JsValue) (c u : string) (w : World) :
  prop b "content" = JString c →
  prop b "coverUrl" = JString u →
  bodySchema_parse b w
  = (Return (c, u, z_coerce_boolean_default_false (prop b "isPublic")), w).
Proof.
  intros Hc Hu. unfold bodySchema_parse.
  destruct b; simpl in Hc; try discriminate Hc.
  simpl in *. rewrite Hc, Hu. reflexivity.
Qed.

Lemma bodySchema_parse_bad (b : JsValue) (w : World) :
  missing_or_mistyped b "content" ∨ missing_or_mistyped b "coverUrl" →
  bodySchema_parse b w = (Throw ZodError, w).
Proof.
  unfold missing_or_mistyped, bodySchema_parse. intros Hbad.
  destruct (is_object b); [|reflexivity].
  destruct (prop b "content") eqn:Hc; simpl; try reflexivity.
  destruct (prop b "coverUrl") eqn:Hu; simpl; try reflexivity.
  destruct Hbad as [Hbad|Hbad]; exfalso; eapply Hbad; reflexivity.
Qed.

Lemma coerce_false_iff (v : JsValue) :
  z_coerce_boolean_default_false v = false ↔ v = JUndefined ∨ v ∈ falsy.
Proof.
  unfold falsy. split.
  - destruct v as [| |b|n|s| |]; simpl; intros H; try discriminate H.
    + by left.
    + right. set_solver.
    + right. destruct b; [discriminate H|]. set_solver.
    + right. apply negb_false_iff, Z.eqb_eq in H. subst n. set_solver.
    + right. apply negb_false_iff, String.eqb_eq in H. subst s. set_solver.
  - intros [->|Hin]; [reflexivity|].
    repeat (apply elem_of_cons in Hin as [->|Hin]; [reflexivity|]).
    by apply elem_of_nil in Hin.
Qed.

Lemma coerce_string (s : string) :
  s ≠ "" → z_coerce_boolean_default_false (JString s) = true.
Proof.
  intros Hs. simpl. apply negb_true_iff, String.eqb_neq, Hs.
Qed.

(** ** Lemmas on the handler monad *)

Lemma ends_intro {A} (h : Handler A) w o d cs w' :
  h w = (o, w') → db w' = d → calls w' = calls w ++ cs → ends h w o d cs.
Proof.
  unfold ends. intros -> <- <-. by destruct w'.
Qed.

Ltac run :=
  unfold ends, get_memories, get_memory, post_memories, put_memory,
    delete_memory, bind, paramsSchema_parse, memory_findMany,
    memory_findUniqueOrThrow, memory_create, memory_update, memory_delete,
    ret, reply, throw; simpl.

Ltac step H := rewrite H; simpl.

Ltac finish :=
  unfold with_db, log; simpl; rewrite <- ?app_assoc, ?app_nil_r; simpl;
  first [ reflexivity
        | match goal with x : World |- _ => destruct x; reflexivity end ].

Ltac not_owner := rewrite bool_decide_true by congruence; simpl.
Ltac is_owner :=
  rewrite bool_decide_false by (let H := fresh in intros H; by apply H);
  simpl.

(** ** The keys of the table *)

Lemma bodySchema_parse_pure (b : JsValue) (w : World) :
  (bodySchema_parse b w).2 = w.
Proof.
  unfold bodySchema_parse, ret, throw. by repeat case_match.
Qed.

Lemma keyed_by_id_insert (d : gmap string Memory) (k : string) (m : Memory) :
  keyed_by_id d → id m = k → keyed_by_id (<[k := m]> d).
Proof.
  intros Hd Hm k' m'. rewrite lookup_insert. case_decide.
  - intros [= <-]. congruence.
  - apply Hd.
Qed.

Lemma keyed_by_id_delete (d : gmap string Memory) (k : string) :
  keyed_by_id d → keyed_by_id (delete k d).
Proof.
  intros Hd k' m'. rewrite lookup_delete. case_decide; [done|apply Hd].
Qed.

(** X14. The routes keep every row under its own [id]: when every key of
    the table is the [id] of its row before a POST, a PUT or a DELETE, it
    is so after it, whatever the outcome. *)
Lemma routes_keep_keys (g : Generated) (w : World) (req : Request) :
  keyed_by_id (db w) →
  keyed_by_id (db (post_memories g req w).2) ∧
  keyed_by_id (db (put_memory req w).2) ∧
  keyed_by_id (db (delete_memory req w).2).
Proof.
  intros Hw. split; [|split].
  - run. pose proof (bodySchema_parse_pure (body req) w) as Hpure.
    destruct (bodySchema_parse (body req) w) as [[[[c u] p]| |] w1];
      simpl in Hpure; subst w1; simpl; try done.
    destruct (db w !! new_id g) eqn:Hfresh; simpl; [done|].
    by apply keyed_by_id_insert.
  - run. destruct (uuid (params_id req)); simpl; [|done].
    pose proof (bodySchema_parse_pure (body req) w) as Hpure.
    destruct (bodySchema_parse (body req) w) as [[[[c u] p]| |] w1];
      simpl in Hpure; subst w1; simpl; try done.
    destruct (db w !! params_id req) as [old|] eqn:Hfind; simpl; [|done].
    case_bool_decide; simpl; [done|]. rewrite Hfind. simpl.
    apply keyed_by_id_insert; [done|]. simpl. by apply Hw.
  - run. destruct (uuid (params_id req)); simpl; [|done].
    destruct (db w !! params_id req) as [old|] eqn:Hfind; simpl; [|done].
    case_bool_decide; simpl; [done|]. rewrite Hfind. simpl.
    by apply keyed_by_id_delete.
Qed.

(** ** Authorization *)

Lemma get_memory_denied (w : World) (req : Request) (memory : Memory) :
  uuid (params_id req) = true →
  db w !! params_id req = Some memory →
  isPublic memory = false →
  user_sub req ≠ userId memory →
  ends (get_memory req) w (Reply 401) (db w)
       [FindUniqueOrThrow (params_id req)].
Proof.
  intros Hid Hfind Hpriv Hother. run. step Hid. step Hfind. step Hpriv.
  not_owner. finish.
Qed.

Lemma get_memory_allowed (w : World) (req : Request) (memory : Memory) :
  uuid (params_id req) = true →
  db w !! params_id req = Some memory →
  isPublic memory = true ∨ user_sub req = userId memory →
  ends (get_memory req) w (Return memory) (db w)
       [FindUniqueOrThrow (params_id req)].
Proof.
  intros Hid Hfind Hallowed. run. step Hid. step Hfind.
  destruct Hallowed as [->|Hown].
  - finish.
  - is_owner. rewrite andb_false_r. finish.
Qed.

(** C1. GET /memories/:id on a memory that is found: a private memory
    asked for by someone other than its owner gets status 401 and no
    body; a public memory, or the owner's own, is returned as the row
    that was looked up, whole. *)
Theorem get_memory_authorization (w : World) (req : Request) (memory : Memory) :
  uuid (params_id req) = true →
  db w !! params_id req = Some memory →
  (isPublic memory = false → user_sub req ≠ userId memory →
     ends (get_memory req) w (Reply 401) (db w)
          [FindUniqueOrThrow (params_id req)]) ∧
  (isPublic memory = true ∨ user_sub req = userId memory →
     ends (get_memory req) w (Return memory) (db w)
          [FindUniqueOrThrow (params_id req)]).
Proof.
  intros Hid Hfind. split.
  - by apply get_memory_denied.
  - by apply get_memory_allowed.
Qed.

(** C2. PUT and DELETE /memories/:id on a memory that exists: a caller who
    is not its owner gets status 401 and no body, the table is as it was
    and the lookup is the only store call; the owner's request goes on to
    the update, respectively the delete, call. *)
Theorem put_delete_owner_only (w : World) (req : Request) (memory : Memory) :
  uuid (params_id req) = true →
  db w !! params_id req = Some memory →
  (∀ c u, prop (body req) "content" = JString c →
          prop (body req) "coverUrl" = JString u →
     (user_sub req ≠ userId memory →
        ends (put_memory req) w (Reply 401) (db w)
             [FindUniqueOrThrow (params_id req)]) ∧
     (user_sub req = userId memory →
        ∃ updated,
          ends (put_memory req) w (Return updated)
               (<[params_id req := updated]> (db w))
               [FindUniqueOrThrow (params_id req);
                Update (params_id req) c u
                  (z_coerce_boolean_default_false
                     (prop (body req) "isPublic"))])) ∧
  (user_sub req ≠ userId memory →
     ends (delete_memory req) w (Reply 401) (db w)
          [FindUniqueOrThrow (params_id req)]) ∧
  (user_sub req = userId memory →
     ends (delete_memory req) w (Return tt) (delete (params_id req) (db w))
          [FindUniqueOrThrow (params_id req); Delete (params_id req)]).
Proof.
  intros Hid Hfind. split; [intros c u Hc Hu; split|split].
  - intros Hother. run. step Hid.
    step (bodySchema_parse_ok _ c u w Hc Hu). step Hfind.
    not_owner. finish.
  - intros Hown. eexists. run. step Hid.
    step (bodySchema_parse_ok _ c u w Hc Hu). step Hfind.
    is_owner. step Hfind. finish.
  - intros Hother. run. step Hid. step Hfind. not_owner. finish.
  - intros Hown. run. step Hid. step Hfind. is_owner. step Hfind. finish.
Qed.

(** ** Errors *)

(** C6. GET, PUT and DELETE /memories/:id with the identifier of no
    memory: [findUniqueOrThrow] throws, nothing catches the error, so the
    handler ends with the thrown error and not with a reply of its own,
    and the table is as it was. *)
Theorem missing_memory_throws (w : World) (req : Request) :
  uuid (params_id req) = true →
  db w !! params_id req = None →
  ends (get_memory req) w (Throw NotFoundError) (db w)
       [FindUniqueOrThrow (params_id req)] ∧
  (∀ c u, prop (body req) "content" = JString c →
          prop (body req) "coverUrl" = JString u →
     ends (put_memory req) w (Throw NotFoundError) (db w)
          [FindUniqueOrThrow (params_id req)]) ∧
  ends (delete_memory req) w (Throw NotFoundError) (db w)
       [FindUniqueOrThrow (params_id req)].
Proof.
  intros Hid Hnone. repeat split.
  - run. step Hid. step Hnone. finish.
  - intros c u Hc Hu. run. step Hid.
    step (bodySchema_parse_ok _ c u w Hc Hu). step Hnone. finish.
  - run. step Hid. step Hnone. finish.
Qed.

Lemma fails_validation_intro {A} (h : Handler A) (w : World) :
  h w = (Throw ZodError, w) → fails_validation h w.
Proof.
  intros Hthrown. unfold fails_validation, ends. rewrite Hthrown.
  split; [|done]. rewrite app_nil_r. by destruct w.
Qed.

(** C8, as amended. A path identifier that is not a UUID makes GET, PUT
    and DELETE /memories/:id, and a body in which [content] or [coverUrl]
    is missing or is not a string makes POST /memories and PUT
    /memories/:id, end with the validation error [parse] throws: no store
    call is made, and since nothing catches the error the answer is
    status 500, the one an uncaught not-found error gets, and not a
    client error. *)
Theorem validation_before_store (w : World) (g : Generated) (req : Request) :
  (uuid (params_id req) = false →
     fails_validation (get_memory req) w ∧
     fails_validation (put_memory req) w ∧
     fails_validation (delete_memory req) w) ∧
  (missing_or_mistyped (body req) "content" ∨
   missing_or_mistyped (body req) "coverUrl" →
     fails_validation (post_memories g req) w ∧
     fails_validation (put_memory req) w).
Proof.
  split.
  - intros Hid. repeat split; apply fails_validation_intro; run; by step Hid.
  - intros Hbad. split; apply fails_validation_intro.
    + run. by step (bodySchema_parse_bad _ w Hbad).
    + run. destruct (uuid (params_id req)); simpl; [|done].
      by step (bodySchema_parse_bad _ w Hbad).
Qed.

(** ** The list *)

#[local] Instance created_le_total : Total created_le.
Proof. intros a b. unfold created_le. lia. Qed.

#[local] Instance created_le_trans : Transitive created_le.
Proof. intros a b c. unfold created_le. lia. Qed.

Lemma substring_first (n : nat) (s : string) :
  n ≤ String.length s →
  ∃ rest, s = substring 0 n s +:+ rest ∧ String.length (substring 0 n s) = n.
Proof.
  revert s. induction n as [|n IH]; intros s Hn.
  - exists s. by destruct s.
  - destruct s as [|a s]; simpl in Hn; [lia|].
    destruct (IH s) as (rest & Hs & Hlen); [lia|].
    exists rest. split; [|simpl; by rewrite Hlen].
    change (String a s = String a (substring 0 n s +:+ rest)). by f_equal.
Qed.

Lemma excerpt_meets_spec (c : string) :
  excerpt_spec c (if 115 <? String.length c
                  then substring 0 115 c +:+ "..." else c).
Proof.
  unfold excerpt_spec.
  destruct (Nat.ltb_spec 115 (String.length c)) as [Hlong|Hshort].
  - split; [|lia]. intros _.
    destruct (substring_first 115 c) as (rest & Hc & Hlen); [lia|].
    by exists (substring 0 115 c), rest.
  - split; [lia|done].
Qed.

Lemma elem_of_rows (d : gmap string Memory) (m : Memory) :
  m ∈ rows d ↔ ∃ k, d !! k = Some m.
Proof.
  unfold rows. rewrite list_elem_of_fmap. split.
  - intros ([k m'] & -> & Hin). exists k. by apply elem_of_map_to_list.
  - intros [k Hk]. exists (k, m). split; [done|].
    by apply elem_of_map_to_list.
Qed.

Lemma findMany_owned (owner : string) (d : gmap string Memory) (m : Memory) :
  m ∈ merge_sort created_le (filter (λ m, userId m = owner) (rows d))
  ↔ owned_by owner d m.
Proof.
  rewrite merge_sort_Permutation, list_elem_of_filter, elem_of_rows.
  unfold owned_by. tauto.
Qed.


(** C7. GET /memories answers with one item per memory of the caller and
    none for any other memory: the memories listed are, up to order, the
    rows of the table whose [userId] is the caller's subject, all of them
    at once, in ascending order of [createdAt], and each item has the
    [id] and [coverUrl] of its memory and its excerpt. *)
Theorem list_owned_sorted (w : World) (req : Request) :
  ∃ memories items,
    ends (get_memories req) w (Return items) (db w)
         [FindMany (user_sub req)] ∧
    memories ≡ₚ filter (λ m, userId m = user_sub req) (rows (db w)) ∧
    (∀ m, m ∈ memories ↔ owned_by (user_sub req) (db w) m) ∧
    StronglySorted created_le memories ∧
    Forall2 (λ m item, item_id item = id m ∧
                       item_coverUrl item = coverUrl m ∧
                       excerpt_spec (content m) (excerpt item))
            memories items.
Proof.
  exists (merge_sort created_le
            (filter (λ m, userId m = user_sub req) (rows (db w)))).
  eexists. split; [run; finish|].
  split; [|split; [|split]].
  - apply merge_sort_Permutation.
  - apply findMany_owned.
  - apply (StronglySorted_merge_sort created_le).
  - apply Forall2_fmap_r, Forall_Forall2_diag, Forall_forall.
    intros m _. simpl. repeat split; apply excerpt_meets_spec.
Qed.

(** ** Create and update *)

Lemma post_memories_ok (g : Generated) (w : World) (req : Request)
    (c u : string) :
  prop (body req) "content" = JString c →
  prop (body req) "coverUrl" = JString u →
  db w !! new_id g = None →
  ∃ p created,
    p = z_coerce_boolean_default_false (prop (body req) "isPublic") ∧
    created = {| id := new_id g; content := c; coverUrl := u; isPublic := p;
                 userId := user_sub req; createdAt := now g |} ∧
    ends (post_memories g req) w (Return created)
         (<[new_id g := created]> (db w)) [Create c u p (user_sub req)].
Proof.
  intros Hc Hu Hfresh. eexists _, _. split; [reflexivity|].
  split; [reflexivity|].
  run. step (bodySchema_parse_ok _ c u w Hc Hu). step Hfresh. finish.
Qed.

Lemma put_memory_ok (w : World) (req : Request) (old : Memory)
    (c u : string) :
  uuid (params_id req) = true →
  db w !! params_id req = Some old →
  user_sub req = userId old →
  prop (body req) "content" = JString c →
  prop (body req) "coverUrl" = JString u →
  ∃ p updated,
    p = z_coerce_boolean_default_false (prop (body req) "isPublic") ∧
    updated = {| id := id old; content := c; coverUrl := u; isPublic := p;
                 userId := userId old; createdAt := createdAt old |} ∧
    ends (put_memory req) w (Return updated)
         (<[params_id req := updated]> (db w))
         [FindUniqueOrThrow (params_id req); Update (params_id req) c u p].
Proof.
  intros Hid Hfind Hown Hc Hu. eexists _, _. split; [reflexivity|].
  split; [reflexivity|].
  run. step Hid. step (bodySchema_parse_ok _ c u w Hc Hu). step Hfind.
  is_owner. step Hfind. finish.
Qed.

(** C4. A body without [isPublic]: the memory POST /memories creates, and
    the memory PUT /memories/:id leaves in place of the old one (whatever
    the old flag was), is returned and stored with [isPublic] false. *)
Theorem omitted_isPublic_is_false (g : Generated) (w : World) (req : Request)
    (fields : gmap string JsValue) (c u : string) :
  body req = JObject fields →
  fields !! "content" = Some (JString c) →
  fields !! "coverUrl" = Some (JString u) →
  fields !! "isPublic" = None →
  (db w !! new_id g = None →
     ∃ created d,
       ends (post_memories g req) w (Return created) d
            [Create c u false (user_sub req)] ∧
       isPublic created = false ∧ d !! new_id g = Some created) ∧
  (∀ old, uuid (params_id req) = true →
          db w !! params_id req = Some old →
          user_sub req = userId old →
     ∃ updated d,
       ends (put_memory req) w (Return updated) d
            [FindUniqueOrThrow (params_id req);
             Update (params_id req) c u false] ∧
       isPublic updated = false ∧ d !! params_id req = Some updated).
Proof.
  intros Hbody Hc Hu Hp.
  assert (prop (body req) "content" = JString c) as Hc'
    by (rewrite Hbody; simpl; by rewrite Hc).
  assert (prop (body req) "coverUrl" = JString u) as Hu'
    by (rewrite Hbody; simpl; by rewrite Hu).
  assert (z_coerce_boolean_default_false (prop (body req) "isPublic") = false)
    as Hp' by (rewrite Hbody; simpl; by rewrite Hp).
  split.
  - intros Hfresh.
    destruct (post_memories_ok g w req c u Hc' Hu' Hfresh)
      as (p & created & -> & -> & Hends).
    rewrite Hp' in *. eexists _, _. split; [exact Hends|].
    split; [reflexivity|]. apply lookup_insert_eq.
  - intros old Hid Hfind Hown.
    destruct (put_memory_ok w req old c u Hid Hfind Hown Hc' Hu')
      as (p & updated & -> & -> & Hends).
    rewrite Hp' in *. eexists _, _. split; [exact Hends|].
    split; [reflexivity|]. apply lookup_insert_eq.
Qed.

(** C5. A PUT /memories/:id of the owner that passes validation returns
    and stores, under the same key, a row with the [content], [coverUrl]
    and [isPublic] of the body and the [id], [userId] and [createdAt] it
    had, and every other key of the table keeps its row. *)
Theorem put_memory_frame (w : World) (req : Request) (old : Memory)
    (c u : string) :
  uuid (params_id req) = true →
  db w !! params_id req = Some old →
  user_sub req = userId old →
  prop (body req) "content" = JString c →
  prop (body req) "coverUrl" = JString u →
  ∃ updated d cs,
    ends (put_memory req) w (Return updated) d cs ∧
    d !! params_id req = Some updated ∧
    content updated = c ∧ coverUrl updated = u ∧
    isPublic updated
    = z_coerce_boolean_default_false (prop (body req) "isPublic") ∧
    id updated = id old ∧ userId updated = userId old ∧
    createdAt updated = createdAt old ∧
    ∀ k, k ≠ params_id req → d !! k = db w !! k.
Proof.
  intros Hid Hfind Hown Hc Hu.
  destruct (put_memory_ok w req old c u Hid Hfind Hown Hc Hu)
    as (p & updated & -> & -> & Hends).
  eexists _, _, _. split; [exact Hends|].
  split; [apply lookup_insert_eq|]. repeat split.
  intros k Hk. by apply lookup_insert_ne.
Qed.

(** C9. Create, then get by id: when POST /memories creates a memory, it
    belongs to the caller, and a GET /memories/:id by that caller with
    the identifier of the memory returns the very record POST returned,
    equal in every field. *)
Theorem create_then_get (g : Generated) (w : World) (req : Request)
    (c u : string) :
  prop (body req) "content" = JString c →
  prop (body req) "coverUrl" = JString u →
  db w !! new_id g = None →
  uuid (new_id g) = true →
  ∃ created d cs,
    ends (post_memories g req) w (Return created) d cs ∧
    userId created = user_sub req ∧
    ∀ w' req',
      db w' = d → user_sub req' = user_sub req → params_id req' = id created →
      ends (get_memory req') w' (Return created) d
           [FindUniqueOrThrow (id created)].
Proof.
  intros Hc Hu Hfresh Hid.
  destruct (post_memories_ok g w req c u Hc Hu Hfresh)
    as (p & created & -> & -> & Hends).
  eexists _, _, _. split; [exact Hends|]. split; [reflexivity|].
  intros w' req' Hdb Hsub Hparam. simpl in Hparam |- *.
  rewrite <- Hdb, <- Hparam. apply get_memory_allowed.
  - by rewrite Hparam.
  - rewrite Hdb, Hparam. apply lookup_insert_eq.
  - right. simpl. by rewrite Hsub.
Qed.

(** C10. The stored [isPublic] is the truthiness of what the body
    supplies, in POST /memories and in PUT /memories/:id alike: any string
    that is not empty is stored as true, and false is stored only when
    the body supplies nothing or one of [false], [0], the empty string
    and [null]. *)
Theorem isPublic_is_truthiness (g : Generated) (w : World) (req : Request)
    (c u : string) :
  prop (body req) "content" = JString c →
  prop (body req) "coverUrl" = JString u →
  (db w !! new_id g = None →
     ∃ created d cs,
       ends (post_memories g req) w (Return created) d cs ∧
       d !! new_id g = Some created ∧
       truthiness_rule (prop (body req) "isPublic") (isPublic created)) ∧
  (∀ old, uuid (params_id req) = true →
          db w !! params_id req = Some old →
          user_sub req = userId old →
     ∃ updated d cs,
       ends (put_memory req) w (Return updated) d cs ∧
       d !! params_id req = Some updated ∧
       truthiness_rule (prop (body req) "isPublic") (isPublic updated)).
Proof.
  intros Hc Hu.
  assert (∀ v, truthiness_rule v (z_coerce_boolean_default_false v)) as Hrule.
  { intros v. split; [|apply coerce_false_iff].
    intros s -> Hs. by apply coerce_string. }
  split.
  - intros Hfresh.
    destruct (post_memories_ok g w req c u Hc Hu Hfresh)
      as (p & created & -> & -> & Hends).
    eexists _, _, _. split; [exact Hends|].
    split; [apply lookup_insert_eq|apply Hrule].
  - intros old Hid Hfind Hown.
    destruct (put_memory_ok w req old c u Hid Hfind Hown Hc Hu)
      as (p & updated & -> & -> & Hends).
    eexists _, _, _. split; [exact Hends|].
    split; [apply lookup_insert_eq|apply Hrule].
Qed.

(** ** What a request does to the table *)

Lemma post_memories_effect (g : Generated) (w : World) (req : Request) :
  match (post_memories g req w).1 with
  | Return created =>
      db w !! new_id g = None ∧ id created = new_id g ∧
      userId created = user_sub req ∧
      db (post_memories g req w).2 = <[new_id g := created]> (db w)
  | _ => db (post_memories g req w).2 = db w
  end.
Proof.
  run. pose proof (bodySchema_parse_pure (body req) w) as Hpure.
  destruct (bodySchema_parse (body req) w) as [[[[c u] p]| |] w1];
    simpl in Hpure; subst w1; simpl; try done.
  by destruct (db w !! new_id g) eqn:Hfresh.
Qed.

Lemma put_memory_effect (w : World) (req : Request) :
  match (put_memory req w).1 with
  | Return updated =>
      ∃ old, uuid (params_id req) = true ∧
             db w !! params_id req = Some old ∧
             userId old = user_sub req ∧
             id updated = id old ∧ userId updated = userId old ∧
             createdAt updated = createdAt old ∧
             db (put_memory req w).2 = <[params_id req := updated]> (db w)
  | _ => db (put_memory req w).2 = db w
  end.
Proof.
  run. destruct (uuid (params_id req)) eqn:Hid; simpl; [|done].
  pose proof (bodySchema_parse_pure (body req) w) as Hpure.
  destruct (bodySchema_parse (body req) w) as [[[[c u] p]| |] w1];
    simpl in Hpure; subst w1; simpl; try done.
  destruct (db w !! params_id req) as [old|] eqn:Hfind; simpl; [|done].
  case_bool_decide as Hown; simpl; [done|]. rewrite Hfind. simpl.
  exists old. by repeat split.
Qed.

Lemma delete_memory_effect (w : World) (req : Request) :
  match (delete_memory req w).1 with
  | Return _ =>
      ∃ old, uuid (params_id req) = true ∧
             db w !! params_id req = Some old ∧
             userId old = user_sub req ∧
             db (delete_memory req w).2 = delete (params_id req) (db w)
  | _ => db (delete_memory req w).2 = db w
  end.
Proof.
  run. destruct (uuid (params_id req)) eqn:Hid; simpl; [|done].
  destruct (db w !! params_id req) as [old|] eqn:Hfind; simpl; [|done].
  case_bool_decide as Hown; simpl; [done|]. rewrite Hfind. simpl.
  exists old. by repeat split.
Qed.

Lemma get_memory_keeps_table (w : World) (req : Request) :
  db (get_memory req w).2 = db w.
Proof.
  run. destruct (uuid (params_id req)); simpl; [|done].
  destruct (db w !! params_id req) as [memory|]; simpl; [|done].
  by destruct (negb (isPublic memory) && _).
Qed.

(** X1. The two GET routes never change the table, whatever the request
    and whatever its outcome. *)
Theorem reads_never_write (w : World) (req : Request) :
  db (get_memories req w).2 = db w ∧ db (get_memory req w).2 = db w.
Proof.
  split; [reflexivity|apply get_memory_keeps_table].
Qed.

(** X2. A POST, PUT or DELETE that does not end by returning (it replied
    401 or an error was thrown) leaves the table as it was. *)
Theorem failed_request_changes_nothing (g : Generated) (w : World)
    (req : Request) :
  (returned (post_memories g req w).1 = false →
     db (post_memories g req w).2 = db w) ∧
  (returned (put_memory req w).1 = false →
     db (put_memory req w).2 = db w) ∧
  (returned (delete_memory req w).1 = false →
     db (delete_memory req w).2 = db w).
Proof.
  split; [|split]; intros Hfailed.
  - pose proof (post_memories_effect g w req) as Heffect.
    by destruct (post_memories g req w).1.
  - pose proof (put_memory_effect w req) as Heffect.
    by destruct (put_memory req w).1.
  - pose proof (delete_memory_effect w req) as Heffect.
    by destruct (delete_memory req w).1.
Qed.

(** X3. No route ever changes the [id], the [userId] or the [createdAt]
    of a row: a key that is in the table before and after a request has
    the same three columns. *)
Theorem columns_never_change (g : Generated) (w : World) (req : Request) :
  keeps_columns (db w) (db (get_memories req w).2) ∧
  keeps_columns (db w) (db (get_memory req w).2) ∧
  keeps_columns (db w) (db (post_memories g req w).2) ∧
  keeps_columns (db w) (db (put_memory req w).2) ∧
  keeps_columns (db w) (db (delete_memory req w).2).
Proof.
  assert (∀ d, keeps_columns d d) as Hsame.
  { intros d k m m' Hm Hm'. by simplify_eq. }
  split; [apply Hsame|]. split; [by rewrite get_memory_keeps_table|].
  split; [|split].
  - pose proof (post_memories_effect g w req) as Heffect.
    destruct (post_memories g req w).1 as [created| |];
      [|by rewrite Heffect..].
    destruct Heffect as (Hfresh & _ & _ & ->). intros k m m' Hm Hm'.
    destruct (decide (new_id g = k)) as [<-|Hne]; [congruence|].
    rewrite lookup_insert_ne in Hm' by done. by simplify_eq.
  - pose proof (put_memory_effect w req) as Heffect.
    destruct (put_memory req w).1 as [updated| |]; [|by rewrite Heffect..].
    destruct Heffect as (old & _ & Hfind & _ & Hi & Hu & Hc & ->).
    intros k m m' Hm Hm'.
    destruct (decide (params_id req = k)) as [<-|Hne].
    + rewrite lookup_insert_eq in Hm'. by simplify_eq.
    + rewrite lookup_insert_ne in Hm' by done. by simplify_eq.
  - pose proof (delete_memory_effect w req) as Heffect.
    destruct (delete_memory req w).1 as [[]| |]; [|by rewrite Heffect..].
    destruct Heffect as (old & _ & Hfind & _ & ->). intros k m m' Hm Hm'.
    apply lookup_delete_Some in Hm' as [_ Hm']. by simplify_eq.
Qed.

(** X4. No request touches what belongs to someone else: after a POST,
    a PUT or a DELETE, every row whose [userId] is not the caller's
    subject is still in the table, under its key and unchanged. *)
Theorem rows_of_others_untouched (g : Generated) (w : World) (req : Request) :
  keeps_rows_of_others (user_sub req) (db w) (db (post_memories g req w).2) ∧
  keeps_rows_of_others (user_sub req) (db w) (db (put_memory req w).2) ∧
  keeps_rows_of_others (user_sub req) (db w) (db (delete_memory req w).2).
Proof.
  split; [|split]; intros k m Hm Hother.
  - pose proof (post_memories_effect g w req) as Heffect.
    destruct (post_memories g req w).1 as [created| |];
      [|by rewrite Heffect..].
    destruct Heffect as (Hfresh & _ & _ & ->).
    rewrite lookup_insert_ne; [done|congruence].
  - pose proof (put_memory_effect w req) as Heffect.
    destruct (put_memory req w).1 as [updated| |]; [|by rewrite Heffect..].
    destruct Heffect as (old & _ & Hfind & Hown & _ & _ & _ & ->).
    rewrite lookup_insert_ne; [done|]. intros <-. by simplify_eq.
  - pose proof (delete_memory_effect w req) as Heffect.
    destruct (delete_memory req w).1 as [[]| |]; [|by rewrite Heffect..].
    destruct Heffect as (old & _ & Hfind & Hown & ->).
    rewrite lookup_delete_ne; [done|]. intros <-. by simplify_eq.
Qed.

(** X5. The number of rows: a POST that returns adds one row, a DELETE
    that returns removes one, and a PUT that returns leaves the number as
    it was. *)
Theorem row_count (g : Generated) (w : World) (req : Request) :
  (returned (post_memories g req w).1 = true →
     size (db (post_memories g req w).2) = S (size (db w))) ∧
  (returned (put_memory req w).1 = true →
     size (db (put_memory req w).2) = size (db w)) ∧
  (returned (delete_memory req w).1 = true →
     S (size (db (delete_memory req w).2)) = size (db w)).
Proof.
  split; [|split]; intros Hreturned.
  - pose proof (post_memories_effect g w req) as Heffect.
    destruct (post_memories g req w).1 as [created| |]; try done.
    destruct Heffect as (Hfresh & _ & _ & ->).
    by apply map_size_insert_None.
  - pose proof (put_memory_effect w req) as Heffect.
    destruct (put_memory req w).1 as [updated| |]; try done.
    destruct Heffect as (old & _ & Hfind & _ & _ & _ & _ & ->).
    by apply map_size_insert_Some.
  - pose proof (delete_memory_effect w req) as Heffect.
    destruct (delete_memory req w).1 as [[]| |]; try done.
    destruct Heffect as (old & _ & Hfind & _ & ->).
    rewrite map_size_delete_Some by done.
    assert (size (db w) ≠ 0); [|lia].
    apply map_size_ne_0_lookup. by exists (params_id req).
Qed.

(** ** How the routes compose *)

Lemma ends_outcome {A} (h : Handler A) w o d cs :
  ends h w o d cs → (h w).1 = o ∧ db (h w).2 = d.
Proof. unfold ends. by intros ->. Qed.

Lemma bodySchema_parse_inv (b : JsValue) (w w' : World) (c u : string)
    (p : bool) :
  bodySchema_parse b w = (Return (c, u, p), w') →
  prop b "content" = JString c ∧ prop b "coverUrl" = JString u ∧
  p = z_coerce_boolean_default_false (prop b "isPublic").
Proof.
  unfold bodySchema_parse, ret, throw. destruct (is_object b); [|done].
  destruct (prop b "content"); simpl; try done.
  destruct (prop b "coverUrl"); simpl; try done.
  by intros [= -> -> <- _].
Qed.

Lemma put_memory_inv (w w1 : World) (req : Request) (updated : Memory) :
  put_memory req w = (Return updated, w1) →
  ∃ old c u,
    uuid (params_id req) = true ∧
    db w !! params_id req = Some old ∧
    user_sub req = userId old ∧
    prop (body req) "content" = JString c ∧
    prop (body req) "coverUrl" = JString u ∧
    updated = {| id := id old; content := c; coverUrl := u;
                 isPublic := z_coerce_boolean_default_false
                               (prop (body req) "isPublic");
                 userId := userId old; createdAt := createdAt old |} ∧
    db w1 = <[params_id req := updated]> (db w).
Proof.
  run. destruct (uuid (params_id req)) eqn:Hid; simpl; [|done].
  pose proof (bodySchema_parse_pure (body req) w) as Hpure.
  destruct (bodySchema_parse (body req) w) as [[[[c u] p]| |] w2] eqn:Hparse;
    simpl in Hpure; subst w2; simpl; try done.
  apply bodySchema_parse_inv in Hparse as (Hc & Hu & ->).
  destruct (db w !! params_id req) as [old|] eqn:Hfind; simpl; [|done].
  case_bool_decide as Hown; simpl; [done|]. rewrite Hfind. simpl.
  intros [= <- <-]. exists old, c, u. by repeat split.
Qed.

(** X6. After a DELETE that returned, the memory is gone for every
    caller: a GET, a second DELETE and a PUT with a valid body on the same
    identifier all end with the not-found error. *)
Theorem delete_then_gone (w w1 : World) (req other : Request) :
  delete_memory req w = (Return tt, w1) →
  params_id other = params_id req →
  db w1 !! params_id req = None ∧
  (get_memory other w1).1 = Throw NotFoundError ∧
  (delete_memory other w1).1 = Throw NotFoundError ∧
  (∀ c u, prop (body other) "content" = JString c →
          prop (body other) "coverUrl" = JString u →
          (put_memory other w1).1 = Throw NotFoundError).
Proof.
  intros Hdelete Hsame.
  pose proof (delete_memory_effect w req) as Heffect.
  rewrite Hdelete in Heffect. simpl in Heffect.
  destruct Heffect as (old & Hid & _ & _ & Hdb).
  assert (db w1 !! params_id other = None) as Hgone
    by (rewrite Hsame, Hdb; apply lookup_delete_eq).
  rewrite <- Hsame in Hid. split; [by rewrite <- Hsame|].
  split; [|split].
  - run. step Hid. by step Hgone.
  - run. step Hid. by step Hgone.
  - intros c u Hc Hu. run. step Hid.
    step (bodySchema_parse_ok _ c u w1 Hc Hu). by step Hgone.
Qed.

(** X7. PUT is idempotent: sending again a PUT that returned gives the
    same record and leaves the table as the first one left it. *)
Theorem put_twice (w w1 : World) (req : Request) (updated : Memory) :
  put_memory req w = (Return updated, w1) →
  (put_memory req w1).1 = Return updated ∧ db (put_memory req w1).2 = db w1.
Proof.
  intros (old & c & u & Hid & Hfind & Hown & Hc & Hu & Hupdated & Hdb)
    %put_memory_inv.
  assert (db w1 !! params_id req = Some updated) as Hfind1
    by (rewrite Hdb; apply lookup_insert_eq).
  assert (user_sub req = userId updated) as Hown1 by by subst updated.
  destruct (put_memory_ok w1 req updated c u Hid Hfind1 Hown1 Hc Hu)
    as (p & again & -> & Hagain & Hends).
  assert (again = updated) as -> by by subst updated again.
  apply ends_outcome in Hends as [-> ->]. split; [done|].
  rewrite Hdb. apply insert_insert_eq.
Qed.

(** X8. After a PUT that returned, a GET on the same identifier gives
    the updated record to the owner, and to any other caller when
    [isPublic] was stored as true; when it was stored as false any other
    caller gets status 401. *)
Theorem put_then_get (w w1 : World) (req other : Request)
    (updated : Memory) :
  put_memory req w = (Return updated, w1) →
  params_id other = params_id req →
  isPublic updated
  = z_coerce_boolean_default_false (prop (body req) "isPublic") ∧
  (get_memory other w1).1
  = if isPublic updated || bool_decide (user_sub other = user_sub req)
    then Return updated else Reply 401.
Proof.
  intros (old & c & u & Hid & Hfind & Hown & Hc & Hu & Hupdated & Hdb)
    %put_memory_inv Hsame.
  split; [by subst updated|].
  assert (db w1 !! params_id other = Some updated) as Hfind1
    by (rewrite Hsame, Hdb; apply lookup_insert_eq).
  assert (userId updated = user_sub req) as Howner by by subst updated.
  rewrite <- Hsame in Hid.
  destruct (isPublic updated) eqn:Hpublic; simpl.
  - apply (ends_outcome _ _ _ _ _
             (get_memory_allowed w1 other updated Hid Hfind1
                (or_introl Hpublic))).
  - case_bool_decide as Hcaller.
    + refine (proj1 (ends_outcome _ _ _ _ _
               (get_memory_allowed w1 other updated Hid Hfind1 _))).
      right. congruence.
    + refine (proj1 (ends_outcome _ _ _ _ _
               (get_memory_denied w1 other updated Hid Hfind1 Hpublic _))).
      congruence.
Qed.

(** X9. Only [content], [coverUrl] and [isPublic] of a body are read: any
    other property, such as a [userId], an [id] or a [createdAt] of the
    client's choosing, changes nothing in what POST and PUT do. *)
Theorem other_body_fields_ignored (g : Generated) (w : World)
    (sub i : string) (fields : gmap string JsValue) (k : string)
    (v : JsValue) :
  k ≠ "content" → k ≠ "coverUrl" → k ≠ "isPublic" →
  post_memories g {| user_sub := sub; params_id := i;
                     body := JObject (<[k := v]> fields) |} w
  = post_memories g {| user_sub := sub; params_id := i;
                       body := JObject fields |} w ∧
  put_memory {| user_sub := sub; params_id := i;
                body := JObject (<[k := v]> fields) |} w
  = put_memory {| user_sub := sub; params_id := i;
                  body := JObject fields |} w.
Proof.
  intros Hc Hu Hp.
  assert (∀ w', bodySchema_parse (JObject (<[k := v]> fields)) w'
                = bodySchema_parse (JObject fields) w') as Hparse.
  { intros w'. unfold bodySchema_parse. simpl.
    by rewrite !lookup_insert_ne. }
  split.
  - unfold post_memories, bind. simpl. by rewrite Hparse.
  - unfold put_memory, bind. simpl.
    destruct (paramsSchema_parse i w) as [[j| |] w']; try done.
    by rewrite Hparse.
Qed.

Lemma get_memories_items :
  ∃ summary : Memory → Summary,
    (∀ m, item_id (summary m) = id m ∧
          item_coverUrl (summary m) = coverUrl m ∧
          excerpt (summary m)
          = if 115 <? String.length (content m)
            then substring 0 115 (content m) +:+ "..." else content m) ∧
    ∀ req w,
      (get_memories req w).1
      = Return (summary <$> merge_sort created_le
                  (filter (λ m, userId m = user_sub req) (rows (db w)))).
Proof. eexists (λ m, Build_Summary _ _ _). split; [|reflexivity]. done. Qed.

Lemma rows_insert (d : gmap string Memory) (k : string) (m : Memory) :
  d !! k = None → rows (<[k := m]> d) ≡ₚ m :: rows d.
Proof.
  intros Hfresh. unfold rows. by rewrite map_to_list_insert.
Qed.

(** X10. After a POST that returned, the list of the caller who posted
    has the item of the new memory and, besides it, the items it had; the
    list of any other caller has the items it had. *)
Theorem post_then_list (g : Generated) (w w1 : World) (req caller : Request)
    (created : Memory) :
  post_memories g req w = (Return created, w1) →
  ∃ items items' item,
    (get_memories caller w).1 = Return items ∧
    (get_memories caller w1).1 = Return items' ∧
    item_id item = id created ∧ item_coverUrl item = coverUrl created ∧
    excerpt_spec (content created) (excerpt item) ∧
    items' ≡ₚ if bool_decide (user_sub caller = user_sub req)
               then item :: items else items.
Proof.
  intros Hpost. pose proof (post_memories_effect g w req) as Heffect.
  rewrite Hpost in Heffect. simpl in Heffect.
  destruct Heffect as (Hfresh & _ & Howner & Hdb).
  destruct get_memories_items as (summary & Hsummary & Hlist).
  eexists _, _, (summary created).
  split; [apply Hlist|]. split; [apply Hlist|].
  destruct (Hsummary created) as (-> & -> & ->).
  split; [done|]. split; [done|]. split; [apply excerpt_meets_spec|].
  case_bool_decide as Hcaller;
    rewrite !merge_sort_Permutation, Hdb, rows_insert, filter_cons by done.
  - by rewrite decide_True by congruence.
  - by rewrite decide_False by congruence.
Qed.



(** X12. The list is empty exactly when no row of the table belongs to
    the caller. *)
Theorem empty_list_iff (w : World) (req : Request) :
  (get_memories req w).1 = Return []
  ↔ ∀ k m, db w !! k = Some m → userId m ≠ user_sub req.
Proof.
  destruct get_memories_items as (summary & _ & Hlist). rewrite Hlist.
  split.
  - intros [= Hnil%fmap_nil_inv] k m Hm Hmine.
    assert (m ∈ merge_sort created_le
                  (filter (λ m, userId m = user_sub req) (rows (db w))))
      as Hin by (apply findMany_owned; split; [by exists k|done]).
    rewrite Hnil in Hin. by apply elem_of_nil in Hin.
  - intros Hnone.
    destruct (merge_sort created_le _) as [|m ms] eqn:Hsorted; [done|].
    assert (owned_by (user_sub req) (db w) m) as [[k Hm] Hmine]
      by (apply findMany_owned; rewrite Hsorted; left).
    by destruct (Hnone k m).
Qed.

(** X13. The owner set at creation guards the memory: after a POST
    that returned, a DELETE or a PUT on the new identifier by any other
    caller gets status 401 and the table stays as the POST left it. *)
Theorem post_then_foreign_write (g : Generated) (w w1 : World)
    (req other : Request) (created : Memory) :
  post_memories g req w = (Return created, w1) →
  uuid (new_id g) = true →
  params_id other = id created →
  user_sub other ≠ user_sub req →
  db w1 !! id created = Some created ∧
  ends (delete_memory other) w1 (Reply 401) (db w1)
       [FindUniqueOrThrow (id created)] ∧
  (∀ c u, prop (body other) "content" = JString c →
          prop (body other) "coverUrl" = JString u →
          ends (put_memory other) w1 (Reply 401) (db w1)
               [FindUniqueOrThrow (id created)]).
Proof.
  intros Hpost Hid Hsame Hother.
  pose proof (post_memories_effect g w req) as Heffect.
  rewrite Hpost in Heffect. simpl in Heffect.
  destruct Heffect as (Hfresh & Hnew & Howner & Hdb).
  assert (db w1 !! id created = Some created) as Hfind
    by (rewrite Hdb, Hnew; apply lookup_insert_eq).
  rewrite <- Hnew, <- Hsame in Hid. rewrite <- Hsame in Hfind |- *.
  split; [done|]. split.
  - run. step Hid. step Hfind. not_owner. finish.
  - intros c u Hc Hu. run. step Hid.
    step (bodySchema_parse_ok _ c u w1 Hc Hu). step Hfind.
    not_owner. finish.
Qed.

End Routes.

(** ** The theorems at work on the sample data *)

(** The caller's two memories, oldest first, the long content cut at 115
    characters; the memory of the other user is not listed. *)
Example get_memories_runs :
  (get_memories (request "ana" "" JUndefined) world_long).1
  = Return
      [ {| item_id := id_c; item_coverUrl := "http://x/c.png";
           excerpt := "short" |};
        {| item_id := id_a; item_coverUrl := "http://x/a.png";
           excerpt := substring 0 115 long_content +:+ "..." |} ].
Proof. vm_compute. reflexivity. Qed.

Example long_content_length :
  String.length long_content = 120 ∧
  String.length (substring 0 115 long_content +:+ "...") = 118.
Proof. split; reflexivity. Qed.

Lemma get_memory_authorization_witness :
  ends (get_memory hex_uuid (request "bia" id_a JUndefined)) world0
       (Reply 401) (db world0) [FindUniqueOrThrow id_a] ∧
  ends (get_memory hex_uuid (request "ana" id_a JUndefined)) world0
       (Return mem_a) (db world0) [FindUniqueOrThrow id_a] ∧
  ends (get_memory hex_uuid (request "ana" id_b JUndefined)) world0
       (Return mem_b) (db world0) [FindUniqueOrThrow id_b].
Proof.
  split; [|split].
  - refine (proj1 (get_memory_authorization hex_uuid world0
                     (request "bia" id_a JUndefined) mem_a _ _) _ _);
      [reflexivity|reflexivity|reflexivity|discriminate].
  - refine (proj2 (get_memory_authorization hex_uuid world0
                     (request "ana" id_a JUndefined) mem_a _ _) _);
      [reflexivity|reflexivity|right; reflexivity].
  - refine (proj2 (get_memory_authorization hex_uuid world0
                     (request "ana" id_b JUndefined) mem_b _ _) _);
      [reflexivity|reflexivity|left; reflexivity].
Defined.

Lemma put_delete_owner_only_witness :
  ends (put_memory hex_uuid (request "bia" id_a body_hello)) world0
       (Reply 401) (db world0) [FindUniqueOrThrow id_a] ∧
  (∃ updated,
     ends (put_memory hex_uuid (request "ana" id_a body_hello)) world0
          (Return updated) (<[id_a := updated]> (db world0))
          [FindUniqueOrThrow id_a;
           Update id_a "hello" "http://x/y.png" false]) ∧
  ends (delete_memory hex_uuid (request "bia" id_a JUndefined)) world0
       (Reply 401) (db world0) [FindUniqueOrThrow id_a] ∧
  ends (delete_memory hex_uuid (request "ana" id_a JUndefined)) world0
       (Return tt) (delete id_a (db world0))
       [FindUniqueOrThrow id_a; Delete id_a].
Proof.
  split; [|split; [|split]].
  - refine (proj1 (proj1 (put_delete_owner_only hex_uuid world0
                     (request "bia" id_a body_hello) mem_a _ _)
                     "hello" "http://x/y.png" _ _) _);
      [reflexivity|reflexivity|reflexivity|reflexivity|discriminate].
  - refine (proj2 (proj1 (put_delete_owner_only hex_uuid world0
                     (request "ana" id_a body_hello) mem_a _ _)
                     "hello" "http://x/y.png" _ _) _);
      reflexivity.
  - refine (proj1 (proj2 (put_delete_owner_only hex_uuid world0
                     (request "bia" id_a JUndefined) mem_a _ _)) _);
      [reflexivity|reflexivity|discriminate].
  - refine (proj2 (proj2 (put_delete_owner_only hex_uuid world0
                     (request "ana" id_a JUndefined) mem_a _ _)) _);
      reflexivity.
Defined.

Lemma omitted_isPublic_is_false_witness :
  isPublic mem_b = true ∧
  (∃ created d,
     ends (post_memories gen_c (request "ana" "" body_hello)) world0
          (Return created) d [Create "hello" "http://x/y.png" false "ana"] ∧
     isPublic created = false ∧ d !! id_c = Some created) ∧
  (∃ updated d,
     ends (put_memory hex_uuid (request "bia" id_b body_hello)) world0
          (Return updated) d
          [FindUniqueOrThrow id_b;
           Update id_b "hello" "http://x/y.png" false] ∧
     isPublic updated = false ∧ d !! id_b = Some updated).
Proof.
  split; [reflexivity|split].
  - refine (proj1 (omitted_isPublic_is_false hex_uuid gen_c world0
                     (request "ana" "" body_hello) _
                     "hello" "http://x/y.png" eq_refl _ _ _) _);
      reflexivity.
  - refine (proj2 (omitted_isPublic_is_false hex_uuid gen_c world0
                     (request "bia" id_b body_hello) _
                     "hello" "http://x/y.png" eq_refl _ _ _) mem_b _ _ _);
      reflexivity.
Defined.

Lemma put_memory_frame_witness :
  ∃ updated d cs,
    ends (put_memory hex_uuid (request "bia" id_b body_hello)) world0
         (Return updated) d cs ∧
    d !! id_b = Some updated ∧
    content updated = "hello" ∧ coverUrl updated = "http://x/y.png" ∧
    isPublic updated = false ∧
    id updated = id_b ∧ userId updated = "bia" ∧ createdAt updated = 10%Z ∧
    ∀ k, k ≠ id_b → d !! k = db world0 !! k.
Proof.
  refine (put_memory_frame hex_uuid world0 (request "bia" id_b body_hello)
            mem_b "hello" "http://x/y.png" _ _ _ _ _); reflexivity.
Defined.

Lemma missing_memory_throws_witness :
  ends (get_memory hex_uuid (request "ana" id_c body_hello)) world0
       (Throw NotFoundError) (db world0) [FindUniqueOrThrow id_c] ∧
  ends (put_memory hex_uuid (request "ana" id_c body_hello)) world0
       (Throw NotFoundError) (db world0) [FindUniqueOrThrow id_c] ∧
  ends (delete_memory hex_uuid (request "ana" id_c body_hello)) world0
       (Throw NotFoundError) (db world0) [FindUniqueOrThrow id_c].
Proof.
  destruct (missing_memory_throws hex_uuid world0
              (request "ana" id_c body_hello) eq_refl eq_refl)
    as (Hget & Hput & Hdelete).
  split; [exact Hget|split; [|exact Hdelete]].
  apply (Hput "hello" "http://x/y.png"); reflexivity.
Defined.

Lemma validation_before_store_witness :
  (fails_validation
     (get_memory hex_uuid (request "ana" "not-a-uuid" body_hello)) world0 ∧
   fails_validation
     (put_memory hex_uuid (request "ana" "not-a-uuid" body_hello)) world0 ∧
   fails_validation
     (delete_memory hex_uuid (request "ana" "not-a-uuid" body_hello))
     world0) ∧
  (fails_validation
     (post_memories gen_c (request "ana" id_a body_no_cover)) world0 ∧
   fails_validation
     (put_memory hex_uuid (request "ana" id_a body_no_cover)) world0).
Proof.
  split.
  - refine (proj1 (validation_before_store hex_uuid world0 gen_c
                     (request "ana" "not-a-uuid" body_hello)) _).
    reflexivity.
  - refine (proj2 (validation_before_store hex_uuid world0 gen_c
                     (request "ana" id_a body_no_cover)) _).
    right. intros s Hs. discriminate Hs.
Defined.

(** C8 as the specification words it fails: a GET with the path
    identifier [not-a-uuid] and a POST whose body has no [coverUrl] are
    answered with status 500, not with a client error. *)
Lemma validation_error_is_not_client_error :
  response_status
    (get_memory hex_uuid (request "ana" "not-a-uuid" JUndefined) world0).1
  = 500 ∧
  ¬ refused_as_client_error
      (get_memory hex_uuid (request "ana" "not-a-uuid" JUndefined)) world0 ∧
  response_status
    (post_memories gen_c (request "ana" "" body_no_cover) world0).1
  = 500 ∧
  ¬ refused_as_client_error
      (post_memories gen_c (request "ana" "" body_no_cover)) world0.
Proof.
  split; [reflexivity|]. split; [by intros [Hclient _]|].
  split; [reflexivity|]. by intros [Hclient _].
Qed.

Lemma create_then_get_witness :
  ∃ created d cs,
    ends (post_memories gen_c (request "ana" "" body_hello)) world0
         (Return created) d cs ∧
    userId created = "ana" ∧
    ∀ w' req',
      db w' = d → user_sub req' = "ana" → params_id req' = id created →
      ends (get_memory hex_uuid req') w' (Return created) d
           [FindUniqueOrThrow (id created)].
Proof.
  refine (create_then_get hex_uuid gen_c world0 (request "ana" "" body_hello)
            "hello" "http://x/y.png" _ _ _ _); reflexivity.
Defined.

Lemma isPublic_is_truthiness_witness :
  (∃ created d cs,
     ends (post_memories gen_c (request "ana" "" body_hello_false_string))
          world0 (Return created) d cs ∧
     d !! id_c = Some created ∧
     truthiness_rule (JString "false") (isPublic created)) ∧
  (∃ updated d cs,
     ends (put_memory hex_uuid (request "ana" id_a body_hello_false_string))
          world0 (Return updated) d cs ∧
     d !! id_a = Some updated ∧
     truthiness_rule (JString "false") (isPublic updated)).
Proof.
  split.
  - refine (proj1 (isPublic_is_truthiness hex_uuid gen_c world0
                     (request "ana" "" body_hello_false_string)
                     "hello" "http://x/y.png" _ _) _); reflexivity.
  - refine (proj2 (isPublic_is_truthiness hex_uuid gen_c world0
                     (request "ana" id_a body_hello_false_string)
                     "hello" "http://x/y.png" _ _) mem_a _ _ _); reflexivity.
Defined.

(** The string ["false"] is stored as true. *)
Example false_string_is_stored_true :
  (post_memories gen_c (request "ana" "" body_hello_false_string) world0).1
  = Return {| id := id_c; content := "hello"; coverUrl := "http://x/y.png";
              isPublic := true; userId := "ana"; createdAt := 30 |}.
Proof. vm_compute. reflexivity. Qed.

Lemma failed_request_changes_nothing_witness :
  db (post_memories gen_c (request "ana" "" body_no_cover) world0).2
  = db world0 ∧
  db (put_memory hex_uuid (request "bia" id_a body_hello) world0).2
  = db world0 ∧
  db (delete_memory hex_uuid (request "ana" id_c JUndefined) world0).2
  = db world0.
Proof.
  destruct (failed_request_changes_nothing hex_uuid gen_c world0
              (request "ana" "" body_no_cover)) as (Hpost & _ & _).
  destruct (failed_request_changes_nothing hex_uuid gen_c world0
              (request "bia" id_a body_hello)) as (_ & Hput & _).
  destruct (failed_request_changes_nothing hex_uuid gen_c world0
              (request "ana" id_c JUndefined)) as (_ & _ & Hdelete).
  split; [|split]; [apply Hpost|apply Hput|apply Hdelete]; reflexivity.
Defined.

Lemma row_count_witness :
  size (db (post_memories gen_c (request "ana" "" body_hello) world0).2) = 3 ∧
  size (db (put_memory hex_uuid (request "ana" id_a body_hello) world0).2) = 2 ∧
  S (size (db (delete_memory hex_uuid (request "ana" id_a JUndefined)
                 world0).2)) = 2.
Proof.
  destruct (row_count hex_uuid gen_c world0 (request "ana" "" body_hello))
    as (Hpost & _ & _).
  destruct (row_count hex_uuid gen_c world0 (request "ana" id_a body_hello))
    as (_ & Hput & _).
  destruct (row_count hex_uuid gen_c world0 (request "ana" id_a JUndefined))
    as (_ & _ & Hdelete).
  split; [|split]; [apply Hpost|apply Hput|apply Hdelete]; reflexivity.
Defined.

Lemma delete_then_gone_witness :
  (get_memory hex_uuid (request "bia" id_a JUndefined)
     (delete_memory hex_uuid (request "ana" id_a JUndefined) world0).2).1
  = Throw NotFoundError ∧
  (delete_memory hex_uuid (request "ana" id_a JUndefined)
     (delete_memory hex_uuid (request "ana" id_a JUndefined) world0).2).1
  = Throw NotFoundError.
Proof.
  destruct (delete_then_gone hex_uuid world0
              (delete_memory hex_uuid (request "ana" id_a JUndefined) world0).2
              (request "ana" id_a JUndefined) (request "bia" id_a JUndefined)
              eq_refl eq_refl) as (_ & Hget & _).
  destruct (delete_then_gone hex_uuid world0
              (delete_memory hex_uuid (request "ana" id_a JUndefined) world0).2
              (request "ana" id_a JUndefined) (request "ana" id_a JUndefined)
              eq_refl eq_refl) as (_ & _ & Hdelete & _).
  split; [exact Hget|exact Hdelete].
Defined.

Lemma put_twice_witness :
  ∃ updated,
    (put_memory hex_uuid (request "bia" id_b body_hello) world0).1
    = Return updated ∧ isPublic updated = false ∧
    (put_memory hex_uuid (request "bia" id_b body_hello)
       (put_memory hex_uuid (request "bia" id_b body_hello) world0).2).1
    = Return updated.
Proof.
  eexists. split; [reflexivity|]. split; [reflexivity|].
  refine (proj1 (put_twice hex_uuid world0 _
                   (request "bia" id_b body_hello) _ _)).
  reflexivity.
Defined.

Lemma put_then_get_witness :
  isPublic mem_b = true ∧
  (get_memory hex_uuid (request "ana" id_b JUndefined) world0).1
  = Return mem_b ∧
  (get_memory hex_uuid (request "ana" id_b JUndefined)
     (put_memory hex_uuid (request "bia" id_b body_hello) world0).2).1
  = Reply 401.
Proof.
  split; [reflexivity|]. split; [reflexivity|].
  refine (proj2 (put_then_get hex_uuid world0 _
                   (request "bia" id_b body_hello)
                   (request "ana" id_b JUndefined)
                   {| id := id_b; content := "hello";
                      coverUrl := "http://x/y.png"; isPublic := false;
                      userId := "bia"; createdAt := 10 |} _ _));
    reflexivity.
Defined.

Lemma other_body_fields_ignored_witness :
  (post_memories gen_c
     (request "ana" ""
        (JObject (<["userId" := JString "bia"]>
                    {[ "content" := JString "hello";
                       "coverUrl" := JString "http://x/y.png" ]})))
     world0).1
  = Return {| id := id_c; content := "hello"; coverUrl := "http://x/y.png";
              isPublic := false; userId := "ana"; createdAt := 30 |}.
Proof.
  refine (eq_trans
            (f_equal fst
               (proj1 (other_body_fields_ignored hex_uuid gen_c world0
                         "ana" ""
                         {[ "content" := JString "hello";
                            "coverUrl" := JString "http://x/y.png" ]}
                         "userId" (JString "bia") _ _ _))) _);
    [discriminate..|reflexivity].
Defined.

Lemma post_then_list_witness :
  ∃ items items' item,
    (get_memories (request "ana" "" JUndefined) world0).1 = Return items ∧
    (get_memories (request "ana" "" JUndefined)
       (post_memories gen_c (request "ana" "" body_hello) world0).2).1
    = Return items' ∧
    item_id item = id_c ∧ item_coverUrl item = "http://x/y.png" ∧
    excerpt_spec "hello" (excerpt item) ∧
    items' ≡ₚ item :: items.
Proof.
  refine (post_then_list gen_c world0 _
            (request "ana" "" body_hello) (request "ana" "" JUndefined)
            {| id := id_c; content := "hello"; coverUrl := "http://x/y.png";
               isPublic := false; userId := "ana"; createdAt := 30 |} _).
  reflexivity.
Defined.

Lemma post_then_foreign_write_witness :
  ends (delete_memory hex_uuid (request "bia" id_c JUndefined))
       (post_memories gen_c (request "ana" "" body_hello) world0).2
       (Reply 401)
       (db (post_memories gen_c (request "ana" "" body_hello) world0).2)
       [FindUniqueOrThrow id_c].
Proof.
  refine (proj1 (proj2 (post_then_foreign_write hex_uuid gen_c world0 _
            (request "ana" "" body_hello) (request "bia" id_c JUndefined)
            {| id := id_c; content := "hello"; coverUrl := "http://x/y.png";
               isPublic := false; userId := "ana"; createdAt := 30 |}
            _ _ _ _)));
    [reflexivity|reflexivity|reflexivity|discriminate].
Defined.

Lemma empty_list_iff_witness :
  (get_memories (request "zoe" "" JUndefined) world0).1 = Return [] ∧
  userId mem_a ≠ "zoe".
Proof.
  split; [reflexivity|].
  refine (proj1 (empty_list_iff hex_uuid world0 (request "zoe" "" JUndefined))
            _ id_a mem_a _); reflexivity.
Defined.

Lemma routes_keep_keys_witness :
  keyed_by_id (db world0) ∧
  keyed_by_id (db (post_memories gen_c (request "ana" "" body_hello)
                     world0).2) ∧
  keyed_by_id (db (put_memory hex_uuid (request "ana" id_a body_hello)
                     world0).2) ∧
  keyed_by_id (db (delete_memory hex_uuid (request "ana" id_a JUndefined)
                     world0).2).
Proof.
  assert (keyed_by_id (db world0)) as Hkeys.
  { intros k m. unfold world0. simpl. rewrite lookup_insert.
    case_decide as Ha; [by intros [= <-]|].
    rewrite lookup_singleton. case_decide as Hb; [by intros [= <-]|done]. }
  split; [exact Hkeys|].
  destruct (routes_keep_keys hex_uuid gen_c world0
              (request "ana" "" body_hello) Hkeys) as (Hpost & _ & _).
  destruct (routes_keep_keys hex_uuid gen_c world0
              (request "ana" id_a body_hello) Hkeys) as (_ & Hput & _).
  destruct (routes_keep_keys hex_uuid gen_c world0
              (request "ana" id_a JUndefined) Hkeys) as (_ & _ & Hdelete).
  split; [exact Hpost|split; [exact Hput|exact Hdelete]].
Defined.
